(** * Backend/app.py: project store and text-generation handlers

    A shallow embedding of the Flask backend in [Backend/app.py]:
    the two module-level stores ([projects], [project_messages]), the
    nine request handlers, the five prompt templates, and the parts of
    the Python runtime the handlers rely on ([dict.get], truthiness,
    [in] on a dict, [str()], [str.strip], [uuid4]).

    Conventions.
    - A handler receives [data], the JSON object that
      [request.get_json()] returned, and the current store; it returns
      the HTTP result together with the store it leaves behind.
    - Python [str] values are Rocq strings, read as UTF-8 bytes.
    - JSON numbers are integers; arrays and objects are kept as trees.
    - The completion provider and the random source of [uuid4] are
      arguments of the handlers that use them.
    - [logging.info] only writes to the log stream and is not modelled.
    - Requests are handled one after the other. *)

From Stdlib Require Import ZArith NArith Ascii String.
From stdpp Require Import gmap strings list pretty.

Set Warnings "-register-all".

(** ** Python values *)

(** The values [request.get_json()] can put in a field, and the values
    the handlers pass to [jsonify]. *)
Inductive pyval :=
  | PNone
  | PBool (b : bool)
  | PInt (z : Z)
  | PStr (s : string)
  | PList (items : list pyval)
  | PDict (items : list (string * pyval)).

(** [bool(v)], as evaluated by [if v and ...]. *)
Definition truthy (v : pyval) : bool :=
  match v with
  | PNone => false
  | PBool b => b
  | PInt z => negb (Z.eqb z 0)
  | PStr s => negb (String.eqb s "")
  | PList items => negb (Nat.eqb (length items) 0)
  | PDict items => negb (Nat.eqb (length items) 0)
  end.

(** What a handler can raise; Flask turns each into a 500 answer. *)
Inductive exn :=
  | ProviderError   (* the completion call raised *)
  | TypeError       (* unhashable type: 'list' / 'dict' *)
  | KeyError.       (* d[key] on a key that d lacks *)

(** The result of a handler: the body given to [jsonify], or the
    exception that escaped. *)
Inductive result :=
  | Response (body : pyval)
  | Failure (e : exn).

(** [data.get(key)] and [data.get(key, default)]. *)
Definition get (data : gmap string pyval) (key : string) (default : pyval) : pyval :=
  match data !! key with
  | Some v => v
  | None => default
  end.

(** Whether [hash(v)] succeeds. *)
Definition hashable (v : pyval) : bool :=
  match v with
  | PList _ | PDict _ => false
  | _ => true
  end.

(** [key in d] for a dict whose keys are all [str]: lists and dicts
    cannot be hashed, every other value that is not a [str] hashes but
    equals no key. *)
Definition contains {A} (d : gmap string A) (key : pyval) : option bool :=
  match key with
  | PStr k => Some (bool_decide (is_Some (d !! k)))
  | PList _ | PDict _ => None
  | PNone | PBool _ | PInt _ => Some false
  end.

(** ** [str.strip()] *)

Definition byte_in (lo hi : N) (c : ascii) : bool :=
  (N.leb lo (N_of_ascii c) && N.leb (N_of_ascii c) hi)%bool.

Definition byte_is (n : N) (c : ascii) : bool := N.eqb (N_of_ascii c) n.

(** The white space of [str.isspace] in the ASCII range:
    U+0009..U+000D, U+001C..U+001F and U+0020. *)
Definition space1 (c : ascii) : bool :=
  (byte_in 9 13 c || byte_in 28 32 c)%bool.

(** U+0085 and U+00A0, as the two bytes of their UTF-8 form. *)
Definition space2 (c d : ascii) : bool :=
  (byte_is 194 c && (byte_is 133 d || byte_is 160 d))%bool.

(** U+1680, U+2000..U+200A, U+2028, U+2029, U+202F, U+205F and U+3000,
    as the three bytes of their UTF-8 form. *)
Definition space3 (c d e : ascii) : bool :=
  ((byte_is 225 c && byte_is 154 d && byte_is 128 e)
   || (byte_is 226 c && byte_is 128 d
       && (byte_in 128 138 e || byte_in 168 169 e || byte_is 175 e))
   || (byte_is 226 c && byte_is 129 d && byte_is 159 e)
   || (byte_is 227 c && byte_is 128 d && byte_is 128 e))%bool.

(** Drops the white space at the front of [s].  With [backwards] the
    string is read from its last byte, so a character shows its bytes
    in the opposite order. *)
Fixpoint drop_spaces (backwards : bool) (s : string) : string :=
  match s with
  | String c s1 =>
      if space1 c then drop_spaces backwards s1 else
      match s1 with
      | String d s2 =>
          if (if backwards then space2 d c else space2 c d)
          then drop_spaces backwards s2 else
          match s2 with
          | String e s3 =>
              if (if backwards then space3 e d c else space3 c d e)
              then drop_spaces backwards s3 else s
          | EmptyString => s
          end
      | EmptyString => s
      end
  | EmptyString => s
  end.

(** One step of [drop_spaces]: the rest of [s] after its first
    character when that character is white space. *)
Definition leading_space (backwards : bool) (s : string) : option string :=
  match s with
  | String c s1 =>
      if space1 c then Some s1 else
      match s1 with
      | String d s2 =>
          if (if backwards then space2 d c else space2 c d)
          then Some s2 else
          match s2 with
          | String e s3 =>
              if (if backwards then space3 e d c else space3 c d e)
              then Some s3 else None
          | EmptyString => None
          end
      | EmptyString => None
      end
  | EmptyString => None
  end.

Definition lstrip (s : string) : string := drop_spaces false s.

Definition rstrip (s : string) : string :=
  String.rev (drop_spaces true (String.rev s)).

(** [s.strip()] *)
Definition strip (s : string) : string := rstrip (lstrip s).

(** ** [str(uuid4())] *)

Definition hex_digit (d : N) : ascii :=
  match String.get (N.to_nat d) "0123456789abcdef" with
  | Some c => c
  | None => "0"%char
  end.

(** ['%0<width>x' % n], for [n] below [16 ^ width]. *)
Fixpoint hex (width : nat) (n : N) : string :=
  match width with
  | O => ""
  | S w => hex w (n / 16) +:+ String (hex_digit (n mod 16)) ""
  end.

(** [uuid4()]: sixteen random bytes, read as a big-endian integer, with
    the variant bits set to RFC 4122 and the version bits set to 4. *)
Definition uuid4 (random : N) : N :=
  let int := (random mod 2 ^ 128)%N in
  let int := N.ldiff int (N.shiftl 49152 48) in
  let int := N.lor int (N.shiftl 32768 48) in
  let int := N.ldiff int (N.shiftl 61440 64) in
  N.lor int (N.shiftl 4 76).

(** [str(u)] for a UUID [u]: 8-4-4-4-12 hexadecimal digits. *)
Definition uuid_str (u : N) : string :=
  let h := hex 32 u in
  String.substring 0 8 h +:+ "-" +:+ String.substring 8 4 h +:+ "-"
  +:+ String.substring 12 4 h +:+ "-" +:+ String.substring 16 4 h +:+ "-"
  +:+ String.substring 20 12 h.

(** ** The stores *)

(** [{'id': project_id, 'name': name}] *)
Record project := Project { proj_id : string; proj_name : pyval }.

(** [{'role': ..., 'content': ...}] *)
Record message := Message { msg_role : string; msg_content : pyval }.

(** The module-level [projects] list and [project_messages] dict. *)
Record store := Store {
  projects : list project;
  project_messages : gmap string (list message)
}.

(** The stores when the process starts. *)
Definition initial : store := Store [] ∅.

Definition project_json (p : project) : pyval :=
  PDict [("id", PStr (proj_id p)); ("name", proj_name p)].

Definition message_json (m : message) : pyval :=
  PDict [("role", PStr (msg_role m)); ("content", msg_content m)].

(** ** The completion provider *)

(** One entry of the [messages] argument of
    [openai.chat.completions.create]. *)
Record chat_message := ChatMessage { chat_role : string; chat_content : string }.

(** [openai.chat.completions.create(model=..., messages=...)] followed
    by [.choices[0].message.content]: the text of the first choice, or
    [None] when the call or the access raises. *)
Definition completion := string -> list chat_message -> option string.

(** The two-entry [messages] list every handler sends. *)
Definition chat (system prompt : string) : list chat_message :=
  [ChatMessage "system" system; ChatMessage "user" prompt].

(** Three providers to run the handlers with: one that answers every
    call with [text], one that always raises, and one that answers
    with the prompt it was sent. *)
Definition always (text : string) : completion := fun _ _ => Some text.

Definition down : completion := fun _ _ => None.

Definition echo : completion := fun _ messages => chat_content <$> last messages.

(** ** [str()] and the prompt templates *)

(** [str(z)] for an [int]. *)
Definition int_str (z : Z) : string := pretty z.

Section Handlers.

(** [repr()] of a list or a dict, as the Python runtime prints it. *)
Variable py_repr : pyval -> string.

(** [str(v)], which is what an f-string slot [{v}] expands to. *)
Definition py_str (v : pyval) : string :=
  match v with
  | PNone => "None"
  | PBool true => "True"
  | PBool false => "False"
  | PInt z => int_str z
  | PStr s => s
  | PList _ | PDict _ => py_repr v
  end.

(** The f-string of [format_update]. *)
Definition format_prompt (raw_update : pyval) : string :=
  "
You are a Project Management Assistant. Reformat the following update into 5 structured sections:
✅ Current Phase
🔜 Next Stage
⛔ Blockers
🛠 Actions Required
📅 Timeline or Deadline

For each section:
- Use bullet points for each item.
- Highlight key points using bold text or emojis.
- Make the update easy to read and visually clear.

---
Update: "
  +:+ py_str raw_update
  +:+ "
".

(** The f-string of [summarize_project]. *)
Definition summary_prompt (raw_notes : pyval) : string :=
  "
Act as a professional project manager. Given the following project notes, summarize the current project status clearly and concisely for stakeholders. Include:
- Project progress
- Current blockers
- Next steps
- Timeline and any deadlines

Use clear bullet points and structure.

---
Notes: "
  +:+ py_str raw_notes
  +:+ "
".

(** The f-string of [extract_action_items]. *)
Definition action_items_prompt (project_name updates : pyval) : string :=
  "
Extract all specific action items from the following project updates. For each action item, write a single, clear sentence starting with a numbered markdown bullet (e.g., 1.), then the action title in bold (using markdown, e.g., **Title**), followed by a colon and a concise description. Keep each action item to a maximum of 1-2 lines. List each action item on a new line as a separate numbered bullet. Do not use JSON or field labels. Only return the list of action items. If there are no specific action items, reply with: No specific action items found in the provided updates.

Example:
1. **Finalize Vendor Selection**: Follow up with Finance to review the latest proposal for the reporting module.
2. **Resolve Merge Conflict**: Dev team to address the merge conflict in the notification service update.
3. **Test User Role Flow Changes**: QA to test the user role flow changes once staging env stabilizes.

---
Project: "
  +:+ py_str project_name
  +:+ "
Updates: "
  +:+ py_str updates
  +:+ "
".

(** The f-string of [analyze_sentiment]. *)
Definition sentiment_prompt (project_name updates : pyval) : string :=
  "
Analyze the overall sentiment of the following project updates. Respond in the following format:

AI
Overall sentiment: <Positive/Neutral/Negative>

Explanation: <A brief explanation of the tone and key points in the updates.>

---
Project: "
  +:+ py_str project_name
  +:+ "
Updates: "
  +:+ py_str updates
  +:+ "
".

(** The f-string of [generate_email]. *)
Definition email_prompt (sentiment project_name updates : pyval) : string :=
  "
Write a professional project update email for the following project. Use the sentiment: "
  +:+ py_str sentiment
  +:+ ".

---
Project: "
  +:+ py_str project_name
  +:+ "
Updates: "
  +:+ py_str updates
  +:+ "
".

(** ** The handlers *)

(** [GET /projects] *)
Definition get_projects (s : store) : result * store :=
  (Response (PList (project_json <$> projects s)), s).

(** [POST /projects]; [random] is what [uuid4] draws. *)
Definition create_project (data : gmap string pyval) (random : N) (s : store)
  : result * store :=
  let name :=
    get data "name"
      (PStr ("Project " +:+ int_str (Z.of_nat (length (projects s)) + 1))) in
  let project_id := uuid_str (uuid4 random) in
  let project := Project project_id name in
  (Response (project_json project),
   Store (projects s ++ [project]) (<[project_id := []]> (project_messages s))).

(** [GET /projects/<project_id>/messages] *)
Definition get_project_messages (project_id : string) (s : store)
  : result * store :=
  (Response (PList (message_json <$> default [] (project_messages s !! project_id))), s).

(** [d[key].append(m)]; [None] stands for the [KeyError] of [d[key]]. *)
Definition append_to (d : gmap string (list message)) (key : pyval) (m : message)
  : option (gmap string (list message)) :=
  match key with
  | PStr k =>
      match d !! k with
      | Some l => Some (<[k := l ++ [m]]> d)
      | None => None
      end
  | _ => None
  end.

(** [POST /format] *)
Definition format_update (data : gmap string pyval) (complete : completion)
    (s : store) : result * store :=
  let raw_update := get data "update" PNone in
  let project_id := get data "project_id" PNone in
  let project_name := get data "project_name" (PStr "") in
  let prompt := format_prompt raw_update in
  match complete "gpt-4" (chat "You are a helpful project assistant." prompt) with
  | None => (Failure ProviderError, s)
  | Some formatted =>
      let known :=
        if truthy project_id
        then contains (project_messages s) project_id
        else Some false in
      match known with
      | None => (Failure TypeError, s)
      | Some false => (Response (PDict [("formatted", PStr formatted)]), s)
      | Some true =>
          match append_to (project_messages s) project_id
                  (Message "user" raw_update) with
          | None => (Failure KeyError, s)
          | Some d1 =>
              match append_to d1 project_id (Message "bot" (PStr formatted)) with
              | None => (Failure KeyError, Store (projects s) d1)
              | Some d2 =>
                  (Response (PDict [("formatted", PStr formatted)]),
                   Store (projects s) d2)
              end
          end
      end
  end.

(** [POST /summarize] *)
Definition summarize_project (data : gmap string pyval) (complete : completion)
    (s : store) : result * store :=
  let raw_notes := get data "update" PNone in
  let project_id := get data "project_id" PNone in
  let project_name := get data "project_name" (PStr "") in
  let summary_prompt := summary_prompt raw_notes in
  match complete "gpt-4"
          (chat "You are a senior project manager assistant." summary_prompt) with
  | None => (Failure ProviderError, s)
  | Some summary => (Response (PDict [("summary", PStr summary)]), s)
  end.

(** [POST /action-items] *)
Definition extract_action_items (data : gmap string pyval) (complete : completion)
    (s : store) : result * store :=
  let updates := get data "update" PNone in
  let project_id := get data "project_id" PNone in
  let project_name := get data "project_name" (PStr "") in
  let prompt := action_items_prompt project_name updates in
  match complete "gpt-4"
          (chat "You are a project management AI that extracts action items as a concise numbered markdown list with bolded titles." prompt) with
  | None => (Failure ProviderError, s)
  | Some content =>
      let action_items := strip content in
      (Response (PDict [("action_items", PStr action_items)]), s)
  end.

(** [POST /sentiment] *)
Definition analyze_sentiment (data : gmap string pyval) (complete : completion)
    (s : store) : result * store :=
  let updates := get data "update" PNone in
  let project_id := get data "project_id" PNone in
  let project_name := get data "project_name" (PStr "") in
  let prompt := sentiment_prompt project_name updates in
  match complete "gpt-4" (chat "You are a sentiment analysis AI." prompt) with
  | None => (Failure ProviderError, s)
  | Some content =>
      let sentiment := strip content in
      (Response (PDict [("sentiment", PStr sentiment)]), s)
  end.

(** [POST /generate-email] *)
Definition generate_email (data : gmap string pyval) (complete : completion)
    (s : store) : result * store :=
  let updates := get data "update" PNone in
  let project_id := get data "project_id" PNone in
  let project_name := get data "project_name" (PStr "") in
  let sentiment := get data "sentiment" (PStr "") in
  let prompt := email_prompt sentiment project_name updates in
  match complete "gpt-4"
          (chat "You are an expert project manager and email writer." prompt) with
  | None => (Failure ProviderError, s)
  | Some email => (Response (PDict [("email", PStr email)]), s)
  end.

(** [POST /create-checkout-session] *)
Definition create_checkout_session (s : store) : result * store :=
  (Response (PDict [("url", PStr "https://example.com/checkout")]), s).

(** The [messages] argument each handler gives to the provider for
    the body [data]. *)
Definition format_messages (data : gmap string pyval) : list chat_message :=
  chat "You are a helpful project assistant."
    (format_prompt (get data "update" PNone)).

Definition summarize_messages (data : gmap string pyval) : list chat_message :=
  chat "You are a senior project manager assistant."
    (summary_prompt (get data "update" PNone)).

Definition action_items_messages (data : gmap string pyval) : list chat_message :=
  chat "You are a project management AI that extracts action items as a concise numbered markdown list with bolded titles."
    (action_items_prompt (get data "project_name" (PStr "")) (get data "update" PNone)).

Definition sentiment_messages (data : gmap string pyval) : list chat_message :=
  chat "You are a sentiment analysis AI."
    (sentiment_prompt (get data "project_name" (PStr "")) (get data "update" PNone)).

Definition email_messages (data : gmap string pyval) : list chat_message :=
  chat "You are an expert project manager and email writer."
    (email_prompt (get data "sentiment" (PStr ""))
       (get data "project_name" (PStr "")) (get data "update" PNone)).

(** ** Requests and runs *)

(** One request, with what the outside world contributes to it: the
    JSON body, the random draw of [uuid4], the provider's behaviour. *)
Inductive request :=
  | GetProjects
  | CreateProject (data : gmap string pyval) (random : N)
  | GetProjectMessages (project_id : string)
  | FormatUpdate (data : gmap string pyval) (complete : completion)
  | SummarizeProject (data : gmap string pyval) (complete : completion)
  | ExtractActionItems (data : gmap string pyval) (complete : completion)
  | AnalyzeSentiment (data : gmap string pyval) (complete : completion)
  | GenerateEmail (data : gmap string pyval) (complete : completion)
  | CreateCheckoutSession.

(** The routing table. *)
Definition handle (r : request) (s : store) : result * store :=
  match r with
  | GetProjects => get_projects s
  | CreateProject data random => create_project data random s
  | GetProjectMessages project_id => get_project_messages project_id s
  | FormatUpdate data complete => format_update data complete s
  | SummarizeProject data complete => summarize_project data complete s
  | ExtractActionItems data complete => extract_action_items data complete s
  | AnalyzeSentiment data complete => analyze_sentiment data complete s
  | GenerateEmail data complete => generate_email data complete s
  | CreateCheckoutSession => create_checkout_session s
  end.

(** The store after serving [reqs] in order, starting from [s]. *)
Fixpoint serve (reqs : list request) (s : store) : store :=
  match reqs with
  | [] => s
  | r :: reqs' => serve reqs' (snd (handle r s))
  end.

(** What [uuid4] drew for the project creations among [reqs], oldest
    first. *)
Fixpoint draws (reqs : list request) : list N :=
  match reqs with
  | [] => []
  | CreateProject _ random :: reqs' => random :: draws reqs'
  | _ :: reqs' => draws reqs'
  end.

(** How many of [reqs] are project creations. *)
Definition creations (reqs : list request) : nat := length (draws reqs).

(** Every key of [project_messages] is a non-empty string and the id
    of an entry of [projects]. *)
Definition keys_known (s : store) : Prop :=
  forall k, is_Some (project_messages s !! k) ->
    k <> "" /\ exists p, p ∈ projects s /\ proj_id p = k.

(** The requests whose handler assigns to a store. *)
Definition writes (r : request) : bool :=
  match r with
  | CreateProject _ _ | FormatUpdate _ _ => true
  | _ => false
  end.

(** ** Facts about the runtime helpers *)

Lemma length_append (s1 s2 : string) :
  String.length (s1 +:+ s2) = String.length s1 + String.length s2.
Proof. induction s1 as [|c s1 IH]; simpl; [reflexivity | now rewrite IH]. Qed.

Lemma length_substring (s : string) :
  forall a b, a + b <= String.length s -> String.length (substring a b s) = b.
Proof.
  induction s as [|c s IH]; intros a b Hab; simpl in *.
  - destruct a, b; simpl in *; lia.
  - destruct a as [|a]; simpl.
    + destruct b as [|b]; simpl; [reflexivity |].
      rewrite IH; simpl; lia.
    + apply IH. lia.
Qed.

Lemma hex_length (w : nat) : forall n, String.length (hex w n) = w.
Proof.
  induction w as [|w IH]; intros n; simpl; [reflexivity |].
  rewrite length_append, IH. simpl. lia.
Qed.

(** [str(uuid4())] has the 36 characters of the canonical form. *)
Lemma uuid_str_length (u : N) : String.length (uuid_str u) = 36.
Proof.
  unfold uuid_str.
  rewrite !length_append, !length_substring by (rewrite hex_length; lia).
  reflexivity.
Qed.

Lemma uuid_str_nonempty (u : N) : uuid_str u <> "".
Proof.
  intros E. pose proof (uuid_str_length u) as L. rewrite E in L. discriminate.
Qed.

Lemma append_last_inj (s1 s2 : string) (c1 c2 : ascii) :
  s1 +:+ String c1 "" = s2 +:+ String c2 "" -> s1 = s2 /\ c1 = c2.
Proof.
  revert s2. induction s1 as [|a s1 IH]; intros [|b s2] E; simpl in E.
  - now injection E.
  - injection E as _ E. destruct s2; discriminate.
  - injection E as _ E. destruct s1; discriminate.
  - injection E as -> E. destruct (IH _ E) as [-> ->]. now split.
Qed.

Lemma hex_digit_value (a : N) :
  (a < 16)%N ->
  (let n := N_of_ascii (hex_digit a) in if n <? 58 then n - 48 else n - 87)%N = a.
Proof.
  intros Ha. destruct a as [|p]; [reflexivity |].
  do 4 (destruct p as [p|p|]; try reflexivity; try lia).
Qed.

Lemma hex_digit_inj (a b : N) :
  (a < 16)%N -> (b < 16)%N -> hex_digit a = hex_digit b -> a = b.
Proof.
  intros Ha Hb E.
  rewrite <- (hex_digit_value a Ha), <- (hex_digit_value b Hb), E. reflexivity.
Qed.

Lemma hex_inj (w : nat) : forall n m,
  hex w n = hex w m -> (n mod 16 ^ N.of_nat w = m mod 16 ^ N.of_nat w)%N.
Proof.
  induction w as [|w IH]; intros n m E.
  - simpl. now rewrite !N.mod_1_r.
  - simpl in E. apply append_last_inj in E as [E1 E2].
    apply IH in E1. apply hex_digit_inj in E2; try (apply N.mod_lt; lia).
    rewrite Nat2N.inj_succ, N.pow_succ_r', !N.Div0.mod_mul_r.
    now rewrite E1, E2.
Qed.

(** [uuid4] returns a 128-bit number. *)
Lemma uuid4_bits (random : N) : (uuid4 random mod 2 ^ 128 = uuid4 random)%N.
Proof.
  apply N.bits_inj. intros i. destruct (N.lt_ge_cases i 128) as [Hi|Hi].
  - now apply N.mod_pow2_bits_low.
  - rewrite N.mod_pow2_bits_high by assumption. unfold uuid4.
    rewrite N.lor_spec, N.ldiff_spec, N.lor_spec, N.ldiff_spec.
    rewrite N.mod_pow2_bits_high by assumption.
    rewrite (N.bits_above_log2 (N.shiftl 32768 48) i)
      by (eapply N.lt_le_trans; [|exact Hi]; now vm_compute).
    rewrite (N.bits_above_log2 (N.shiftl 4 76) i)
      by (eapply N.lt_le_trans; [|exact Hi]; now vm_compute).
    reflexivity.
Qed.

Ltac explode_string h H :=
  repeat (destruct h as [|? h]; [discriminate H |];
          simpl in H; apply Nat.succ_inj in H);
  destruct h; [clear H | discriminate H].

Lemma dashes_inj (h h' : string) :
  String.length h = 32 -> String.length h' = 32 ->
  substring 0 8 h +:+ "-" +:+ substring 8 4 h +:+ "-"
  +:+ substring 12 4 h +:+ "-" +:+ substring 16 4 h +:+ "-"
  +:+ substring 20 12 h
  = substring 0 8 h' +:+ "-" +:+ substring 8 4 h' +:+ "-"
    +:+ substring 12 4 h' +:+ "-" +:+ substring 16 4 h' +:+ "-"
    +:+ substring 20 12 h' ->
  h = h'.
Proof.
  intros L L' E. explode_string h L. explode_string h' L'.
  simpl in E. injection E. intros. subst. reflexivity.
Qed.

(** Two UUIDs that print alike are the same UUID. *)
Lemma uuid_str_inj (a b : N) :
  uuid_str (uuid4 a) = uuid_str (uuid4 b) -> uuid4 a = uuid4 b.
Proof.
  intros E. apply dashes_inj in E; try apply hex_length.
  apply hex_inj in E. change (16 ^ N.of_nat 32)%N with (2 ^ 128)%N in E.
  now rewrite !uuid4_bits in E.
Qed.

(** *** [strip] *)

Lemma append_cons (c : ascii) (s t : string) :
  String c s +:+ t = String c (s +:+ t).
Proof. reflexivity. Qed.

Lemma append_nil_l (t : string) : "" +:+ t = t.
Proof. reflexivity. Qed.

Lemma append_nil_r (s : string) : s +:+ "" = s.
Proof.
  induction s as [|c s IH]; [reflexivity |]. now rewrite append_cons, IH.
Qed.

Lemma append_assoc (s1 s2 s3 : string) :
  (s1 +:+ s2) +:+ s3 = s1 +:+ (s2 +:+ s3).
Proof.
  induction s1 as [|c s1 IH]; [reflexivity |]. now rewrite !append_cons, IH.
Qed.

Lemma rev_app_append (s1 : string) : forall s2 s3,
  String.rev_app s1 (s2 +:+ s3) = String.rev_app s1 s2 +:+ s3.
Proof.
  induction s1 as [|c s1 IH]; intros s2 s3; simpl; [reflexivity |].
  apply (IH (String c s2) s3).
Qed.

Lemma rev_cons (c : ascii) (s : string) :
  String.rev (String c s) = String.rev s +:+ String c "".
Proof. unfold String.rev. simpl. apply (rev_app_append s "" (String c "")). Qed.

Lemma rev_append (s1 s2 : string) :
  String.rev (s1 +:+ s2) = String.rev s2 +:+ String.rev s1.
Proof.
  induction s1 as [|c s1 IH].
  - rewrite append_nil_l. symmetry. apply append_nil_r.
  - now rewrite append_cons, !rev_cons, IH, append_assoc.
Qed.

Lemma rev_involutive (s : string) : String.rev (String.rev s) = s.
Proof.
  induction s as [|c s IH]; [reflexivity |].
  now rewrite rev_cons, rev_append, IH.
Qed.

Lemma drop_spaces_step (backwards : bool) (s : string) :
  drop_spaces backwards s
  = match leading_space backwards s with
    | Some rest => drop_spaces backwards rest
    | None => s
    end.
Proof.
  destruct s as [|c s1]; simpl; [reflexivity |].
  destruct (space1 c); [reflexivity |].
  destruct s1 as [|d s2]; [reflexivity |].
  destruct (if backwards then space2 d c else space2 c d); [reflexivity |].
  destruct s2 as [|e s3]; [reflexivity |].
  now destruct (if backwards then space3 e d c else space3 c d e).
Qed.

(** A white-space character at the front is a prefix [w] of one to
    three bytes, and it is white space before any other text too. *)
Lemma leading_space_prefix (backwards : bool) (s rest : string) :
  leading_space backwards s = Some rest ->
  exists w, s = w +:+ rest
            /\ forall t, leading_space backwards (w +:+ t) = Some t.
Proof.
  destruct s as [|c s1]; simpl; [discriminate |].
  destruct (space1 c) eqn:E1.
  { intros [= <-]. exists (String c ""). split; [reflexivity |].
    intros t. rewrite append_cons, append_nil_l. simpl. now rewrite E1. }
  destruct s1 as [|d s2]; [discriminate |].
  destruct (if backwards then space2 d c else space2 c d) eqn:E2.
  { intros [= <-]. exists (String c (String d "")). split; [reflexivity |].
    intros t. rewrite !append_cons, append_nil_l. simpl. now rewrite E1, E2. }
  destruct s2 as [|e s3]; [discriminate |].
  destruct (if backwards then space3 e d c else space3 c d e) eqn:E3;
    [|discriminate].
  intros [= <-]. exists (String c (String d (String e ""))).
  split; [reflexivity |].
  intros t. rewrite !append_cons, append_nil_l. simpl. now rewrite E1, E2, E3.
Qed.

Lemma leading_space_shorter (backwards : bool) (s rest : string) :
  leading_space backwards s = Some rest -> String.length rest < String.length s.
Proof.
  intros H. apply leading_space_prefix in H as (w & -> & Hw).
  rewrite length_append. destruct w; [|simpl; lia].
  specialize (Hw ""). discriminate Hw.
Qed.

(** A text without white space at the front has no prefix with white
    space at the front. *)
Lemma leading_space_none_prefix (backwards : bool) (s t : string) :
  leading_space backwards (s +:+ t) = None -> s <> "" ->
  leading_space backwards s = None.
Proof.
  destruct s as [|c s1]; [congruence |]. intros H _.
  rewrite append_cons in H. simpl in *.
  destruct (space1 c); [discriminate |].
  destruct s1 as [|d s2]; [reflexivity |]. rewrite append_cons in H.
  destruct (if backwards then space2 d c else space2 c d); [discriminate |].
  destruct s2 as [|e s3]; [reflexivity |]. rewrite append_cons in H.
  now destruct (if backwards then space3 e d c else space3 c d e).
Qed.

(** What [drop_spaces] removes is a prefix made of white space, and
    what it leaves does not start with white space. *)
Lemma drop_spaces_spec (backwards : bool) (s : string) :
  leading_space backwards (drop_spaces backwards s) = None
  /\ exists pre, s = pre +:+ drop_spaces backwards s
                 /\ drop_spaces backwards pre = "".
Proof.
  remember (String.length s) as n eqn:Hn. revert s Hn.
  induction n as [n IH] using lt_wf_ind. intros s ->.
  rewrite (drop_spaces_step backwards s).
  destruct (leading_space backwards s) as [rest|] eqn:E.
  - destruct (IH _ (leading_space_shorter _ _ _ E) rest eq_refl)
      as (Hnone & pre & Hpre & Hsp).
    split; [exact Hnone |].
    apply leading_space_prefix in E as (w & -> & Hw).
    exists (w +:+ pre). split.
    + now rewrite append_assoc, <- Hpre.
    + now rewrite (drop_spaces_step backwards (w +:+ pre)), Hw.
  - split; [exact E |]. exists "". now split.
Qed.

(** [strip] removes white space, and only white space, from the two
    ends: what is left neither starts nor ends with white space. *)
Lemma strip_spec (s : string) :
  leading_space false (strip s) = None
  /\ leading_space true (String.rev (strip s)) = None
  /\ exists pre post,
       s = pre +:+ strip s +:+ post /\ lstrip pre = "" /\ rstrip post = "".
Proof.
  unfold strip, rstrip, lstrip.
  destruct (drop_spaces_spec false s) as (Hfront & pre & Hpre & Hsp).
  set (x := drop_spaces false s) in *.
  destruct (drop_spaces_spec true (String.rev x)) as (Hback & q & Hq & Hsq).
  set (y := drop_spaces true (String.rev x)) in *.
  assert (Hx : x = String.rev y +:+ String.rev q).
  { now rewrite <- rev_append, <- Hq, rev_involutive. }
  split; [|split].
  - destruct (decide (String.rev y = "")) as [E|E]; [now rewrite E |].
    apply (leading_space_none_prefix false _ (String.rev q)); [|exact E].
    now rewrite <- Hx.
  - now rewrite rev_involutive.
  - exists pre, (String.rev q). split; [|split].
    + now rewrite <- Hx.
    + exact Hsp.
    + now rewrite rev_involutive, Hsq.
Qed.

(** ** Facts about the store *)

Lemma append_to_known d k l m :
  d !! k = Some l -> append_to d (PStr k) m = Some (<[k := l ++ [m]]> d).
Proof. intros H. unfold append_to. now rewrite H. Qed.

Lemma append_to_keys d key m d' :
  append_to d key m = Some d' ->
  forall k, is_Some (d' !! k) <-> is_Some (d !! k).
Proof.
  unfold append_to. destruct key as [| | |k0| |]; try discriminate.
  destruct (d !! k0) as [l|] eqn:E; [|discriminate].
  intros [= <-] k. destruct (decide (k0 = k)) as [->|Hne].
  - rewrite lookup_insert_eq, E. split; eauto.
  - now rewrite lookup_insert_ne.
Qed.

(** After [key in d] gave [True], [d[key]] does not raise. *)
Lemma contains_append_to d key m :
  contains d key = Some true -> is_Some (append_to d key m).
Proof.
  destruct key as [| | |k| |]; simpl; try discriminate.
  intros [= H]. apply bool_decide_eq_true_1 in H. destruct H as [l Hl].
  rewrite Hl. eauto.
Qed.

Lemma format_update_frame data complete s :
  projects (snd (format_update data complete s)) = projects s /\
  forall k, is_Some (project_messages (snd (format_update data complete s)) !! k)
            <-> is_Some (project_messages s !! k).
Proof.
  unfold format_update.
  destruct (complete _ _) as [formatted|]; simpl; [|tauto].
  destruct (if truthy _ then _ else _) as [[|]|]; simpl; try tauto.
  destruct (append_to (project_messages s) _ _) as [d1|] eqn:A1; simpl; [|tauto].
  destruct (append_to d1 _ _) as [d2|] eqn:A2; simpl; split; auto; intros k.
  - rewrite (append_to_keys _ _ _ _ A2 k). apply (append_to_keys _ _ _ _ A1 k).
  - apply (append_to_keys _ _ _ _ A1 k).
Qed.

Lemma initial_keys_known : keys_known initial.
Proof. intros k [l Hl]. simpl in Hl. now rewrite lookup_empty in Hl. Qed.

Lemma create_project_keys_known data random s :
  keys_known s -> keys_known (snd (create_project data random s)).
Proof.
  intros Hs k. simpl. destruct (decide (uuid_str (uuid4 random) = k)) as [<-|Hne].
  - intros _. split; [apply uuid_str_nonempty |].
    eexists. split; [apply elem_of_app; right; apply list_elem_of_singleton; reflexivity |].
    reflexivity.
  - rewrite lookup_insert_ne by assumption. intros Hk.
    destruct (Hs k Hk) as [Hk0 (p & Hp & Hid)]. split; [assumption |].
    exists p. split; [apply elem_of_app; now left | assumption].
Qed.

Lemma format_update_keys_known data complete s :
  keys_known s -> keys_known (snd (format_update data complete s)).
Proof.
  intros Hs k Hk. destruct (format_update_frame data complete s) as [Hp Hm].
  rewrite Hp. apply Hs, Hm, Hk.
Qed.

Lemma generation_snd data complete s :
  snd (summarize_project data complete s) = s /\
  snd (extract_action_items data complete s) = s /\
  snd (analyze_sentiment data complete s) = s /\
  snd (generate_email data complete s) = s.
Proof.
  unfold summarize_project, extract_action_items, analyze_sentiment, generate_email.
  repeat split; destruct (complete _ _); reflexivity.
Qed.

Lemma handle_keys_known r s : keys_known s -> keys_known (snd (handle r s)).
Proof.
  intros Hs. destruct r; simpl; try assumption.
  - now apply create_project_keys_known.
  - now apply format_update_keys_known.
  - now rewrite (proj1 (generation_snd data complete s)).
  - now rewrite (proj1 (proj2 (generation_snd data complete s))).
  - now rewrite (proj1 (proj2 (proj2 (generation_snd data complete s)))).
  - now rewrite (proj2 (proj2 (proj2 (generation_snd data complete s)))).
Qed.

Lemma serve_keys_known reqs : forall s, keys_known s -> keys_known (serve reqs s).
Proof.
  induction reqs as [|r reqs IH]; intros s Hs; simpl; [assumption |].
  apply IH, handle_keys_known, Hs.
Qed.

(** Only [create_project] touches [projects]: it appends one entry,
    whose id is the string of the UUID drawn. *)
Lemma handle_projects r s :
  proj_id <$> projects (snd (handle r s))
  = (proj_id <$> projects s) ++ ((fun n => uuid_str (uuid4 n)) <$> draws [r]).
Proof.
  destruct r; simpl; rewrite ?app_nil_r; try reflexivity.
  - now rewrite fmap_app.
  - now rewrite (proj1 (format_update_frame data complete s)).
  - now rewrite (proj1 (generation_snd data complete s)).
  - now rewrite (proj1 (proj2 (generation_snd data complete s))).
  - now rewrite (proj1 (proj2 (proj2 (generation_snd data complete s)))).
  - now rewrite (proj2 (proj2 (proj2 (generation_snd data complete s)))).
Qed.

Lemma draws_cons r reqs : draws (r :: reqs) = draws [r] ++ draws reqs.
Proof. destruct r; reflexivity. Qed.

Lemma serve_projects reqs : forall s,
  proj_id <$> projects (serve reqs s)
  = (proj_id <$> projects s) ++ ((fun n => uuid_str (uuid4 n)) <$> draws reqs).
Proof.
  induction reqs as [|r reqs IH]; intros s.
  - simpl. now rewrite app_nil_r.
  - change (serve (r :: reqs) s) with (serve reqs (snd (handle r s))).
    rewrite IH, handle_projects, (draws_cons r reqs), fmap_app, app_assoc.
    reflexivity.
Qed.

Lemma serve_projects_length reqs :
  length (projects (serve reqs initial)) = creations reqs.
Proof.
  unfold creations.
  rewrite <- (length_fmap proj_id), serve_projects. simpl.
  now rewrite length_fmap.
Qed.

(** [format_update] on any store, for a non-empty id that is a key. *)
Lemma format_update_known data complete s k old formatted :
  k <> "" ->
  get data "project_id" PNone = PStr k ->
  project_messages s !! k = Some old ->
  complete "gpt-4" (format_messages data) = Some formatted ->
  format_update data complete s
  = (Response (PDict [("formatted", PStr formatted)]),
     Store (projects s)
       (<[k := old ++ [Message "user" (get data "update" PNone);
                       Message "bot" (PStr formatted)]]> (project_messages s))).
Proof.
  intros Hk Hid Hold Hc. unfold format_update, format_messages in *.
  rewrite Hc, Hid. simpl.
  apply String.eqb_neq in Hk. rewrite Hk. simpl.
  rewrite bool_decide_eq_true_2 by (rewrite Hold; eauto).
  rewrite Hold, lookup_insert_eq, insert_insert_eq, <- app_assoc. reflexivity.
Qed.

(** The response of [format_update] once the provider has answered:
    it does not depend on the stores. *)
Lemma format_update_fst data complete s formatted :
  complete "gpt-4" (format_messages data) = Some formatted ->
  fst (format_update data complete s)
  = if truthy (get data "project_id" PNone)
       && negb (hashable (get data "project_id" PNone))
    then Failure TypeError
    else Response (PDict [("formatted", PStr formatted)]).
Proof.
  intros Hc. unfold format_update, format_messages in *. rewrite Hc.
  destruct (get data "project_id" PNone) as [|b|z|k|items|items]; simpl.
  - reflexivity.
  - now destruct b.
  - now destruct (negb (z =? 0)%Z).
  - destruct (negb (k =? "")%string); simpl; [|reflexivity].
    destruct (project_messages s !! k) as [l|] eqn:E.
    + rewrite bool_decide_eq_true_2 by eauto.
      now rewrite lookup_insert_eq.
    + now rewrite bool_decide_eq_false_2 by (intros [? ?]; discriminate).
  - now destruct (negb (length items =? 0)).
  - now destruct (negb (length items =? 0)).
Qed.

Lemma fresh_uuid_fresh_string random (drawn : list N) :
  uuid4 random ∉ uuid4 <$> drawn ->
  uuid_str (uuid4 random) ∉ (fun n => uuid_str (uuid4 n)) <$> drawn.
Proof.
  intros Hfresh Hin. apply list_elem_of_fmap in Hin as (n & E & Hn).
  apply Hfresh. apply uuid_str_inj in E. rewrite E.
  now apply list_elem_of_fmap_2.
Qed.

(** ** The claims *)

(** C1. After any run, a format call whose [project_id] is a key of
    [project_messages] and whose completion returns [formatted] appends
    exactly two entries to that key's list, first role [user] with the
    request's [update], then role [bot] with [formatted]; the response
    carries [formatted]; [projects] and every other key's list are
    unchanged; and the messages endpoint then lists the old entries
    followed by these two. *)
Theorem format_update_appends_user_then_bot
    reqs data complete project_id old formatted :
  let s := serve reqs initial in
  let raw_update := get data "update" PNone in
  let s' := snd (format_update data complete s) in
  data !! "project_id" = Some (PStr project_id) ->
  project_messages s !! project_id = Some old ->
  complete "gpt-4" (format_messages data) = Some formatted ->
  format_update data complete s
  = (Response (PDict [("formatted", PStr formatted)]),
     Store (projects s)
       (<[project_id := old ++ [Message "user" raw_update;
                                Message "bot" (PStr formatted)]]>
          (project_messages s)))
  /\ (forall k, k <> project_id ->
        project_messages s' !! k = project_messages s !! k)
  /\ fst (get_project_messages project_id s')
     = Response (PList (message_json <$>
                          old ++ [Message "user" raw_update;
                                  Message "bot" (PStr formatted)])).
Proof.
  intros s raw_update s' Hid Hold Hc.
  assert (Hne : project_id <> "").
  { apply (serve_keys_known reqs initial initial_keys_known project_id).
    fold s. rewrite Hold. eauto. }
  assert (Hget : get data "project_id" PNone = PStr project_id).
  { unfold get. now rewrite Hid. }
  pose proof (format_update_known data complete s project_id old formatted
                Hne Hget Hold Hc) as E.
  subst s'. rewrite E. simpl. repeat split.
  - intros k Hk. now rewrite lookup_insert_ne.
  - unfold get_project_messages. simpl. now rewrite lookup_insert_eq.
Qed.

(** C2. When the completion call of a format request raises, the
    handler fails and both stores are exactly what they were. *)
Theorem format_update_provider_failure data complete s :
  complete "gpt-4" (format_messages data) = None ->
  format_update data complete s = (Failure ProviderError, s).
Proof. intros Hc. unfold format_update, format_messages in *. now rewrite Hc. Qed.

(** C3, amended. An absent [update] reaches the provider as the text
    [None], an absent [project_name] or [sentiment] as the empty text;
    and no answer of a text-generation handler depends on the stores,
    so the numbered default of project creation plays no part. *)
Theorem absent_fields_in_prompts data :
  (data !! "update" = None ->
     format_messages data = format_messages (<["update" := PStr "None"]> data)
     /\ summarize_messages data
        = summarize_messages (<["update" := PStr "None"]> data)
     /\ action_items_messages data
        = action_items_messages (<["update" := PStr "None"]> data)
     /\ sentiment_messages data
        = sentiment_messages (<["update" := PStr "None"]> data)
     /\ email_messages data = email_messages (<["update" := PStr "None"]> data))
  /\ (data !! "project_name" = None ->
     action_items_messages data
     = action_items_messages (<["project_name" := PStr ""]> data)
     /\ sentiment_messages data
        = sentiment_messages (<["project_name" := PStr ""]> data)
     /\ email_messages data = email_messages (<["project_name" := PStr ""]> data))
  /\ (data !! "sentiment" = None ->
     email_messages data = email_messages (<["sentiment" := PStr ""]> data))
  /\ (forall complete s1 s2,
     fst (format_update data complete s1) = fst (format_update data complete s2)
     /\ fst (summarize_project data complete s1)
        = fst (summarize_project data complete s2)
     /\ fst (extract_action_items data complete s1)
        = fst (extract_action_items data complete s2)
     /\ fst (analyze_sentiment data complete s1)
        = fst (analyze_sentiment data complete s2)
     /\ fst (generate_email data complete s1)
        = fst (generate_email data complete s2)).
Proof.
  unfold format_messages, summarize_messages, action_items_messages,
    sentiment_messages, email_messages, get.
  repeat split; intros;
    try (rewrite ?lookup_insert_eq, ?lookup_insert_ne by discriminate;
         match goal with H : _ !! _ = None |- _ => now rewrite H end).
  - destruct (complete "gpt-4" (format_messages data)) as [formatted|] eqn:Hc.
    + now rewrite !(format_update_fst data complete _ formatted Hc).
    + unfold format_update, format_messages in *. now rewrite Hc.
  - unfold summarize_project. now destruct (complete _ _).
  - unfold extract_action_items. now destruct (complete _ _).
  - unfold analyze_sentiment. now destruct (complete _ _).
  - unfold generate_email. now destruct (complete _ _).
Qed.

(** C4, amended. After any run, a creation answers with the project
    it made: its id is the string of the UUID drawn, taken without any
    check against the ids in use, its name the body's [name] or, when
    the body has none, [Project N] for the N-th creation of the run
    ([Project 1] whenever [projects] is empty); the project is
    appended to [projects] and its id is bound to the empty list in
    [project_messages]; and when [uuid4] draws a UUID it has not drawn
    before, the id differs from the id of every project and was not
    yet a key of [project_messages]. *)
Theorem create_project_numbers_and_registers reqs data random :
  let s := serve reqs initial in
  let s' := snd (create_project data random s) in
  let project_id := uuid_str (uuid4 random) in
  let project :=
    Project project_id
      (get data "name"
         (PStr ("Project " +:+ int_str (Z.of_nat (S (creations reqs)))))) in
  create_project data random s
  = (Response (project_json project),
     Store (projects s ++ [project]) (<[project_id := []]> (project_messages s)))
  /\ project_messages s' !! project_id = Some []
  /\ (data !! "name" = None ->
      proj_name project
      = PStr ("Project " +:+ int_str (Z.of_nat (S (creations reqs)))))
  /\ (forall s0, projects s0 = [] -> data !! "name" = None ->
      fst (create_project data random s0)
      = Response (project_json (Project project_id (PStr "Project 1"))))
  /\ (uuid4 random ∉ (uuid4 <$> draws reqs) ->
      (project_id ∉ proj_id <$> projects s)
      /\ project_messages s !! project_id = None).
Proof.
  intros s s' project_id project.
  assert (E : create_project data random s
              = (Response (project_json project),
                 Store (projects s ++ [project])
                   (<[project_id := []]> (project_messages s)))).
  { unfold create_project. subst s. rewrite serve_projects_length.
    replace (Z.of_nat (creations reqs) + 1)%Z
      with (Z.of_nat (S (creations reqs))) by lia.
    reflexivity. }
  split; [exact E |]. split; [|split; [|split]].
  - subst s'. rewrite E. simpl. apply lookup_insert_eq.
  - intros Hname. subst project. simpl. unfold get. now rewrite Hname.
  - intros s0 Hempty Hname. unfold create_project, get.
    now rewrite Hname, Hempty.
  - intros Hfresh.
    assert (Hids : project_id ∉ proj_id <$> projects s).
    { subst s. rewrite serve_projects. simpl.
      now apply fresh_uuid_fresh_string. }
    split; [exact Hids |].
    destruct (project_messages s !! project_id) as [l|] eqn:El; [|reflexivity].
    exfalso. apply Hids.
    destruct (serve_keys_known reqs initial initial_keys_known project_id)
      as [_ (p & Hp & Hid)]; [fold s; rewrite El; eauto |].
    rewrite <- Hid. now apply list_elem_of_fmap_2.
Qed.

(** C5. After any run of requests from the initial stores, every key
    of [project_messages] is the id of an entry of [projects]. *)
Theorem message_keys_have_projects reqs k :
  is_Some (project_messages (serve reqs initial) !! k) ->
  exists p, p ∈ projects (serve reqs initial) /\ proj_id p = k.
Proof.
  intros Hk.
  apply (serve_keys_known reqs initial initial_keys_known k Hk).
Qed.

(** C6, amended. A format call whose [project_id] is absent or is not
    a key of [project_messages] leaves both stores as they were; it
    answers with the completion's text unless [project_id] is a
    non-empty array or object, for which the membership test raises. *)
Theorem format_update_unknown_id data complete s formatted :
  let project_id := get data "project_id" PNone in
  (forall k, project_id = PStr k -> project_messages s !! k = None) ->
  complete "gpt-4" (format_messages data) = Some formatted ->
  snd (format_update data complete s) = s
  /\ (truthy project_id && negb (hashable project_id) = false ->
      fst (format_update data complete s)
      = Response (PDict [("formatted", PStr formatted)]))
  /\ (truthy project_id && negb (hashable project_id) = true ->
      fst (format_update data complete s) = Failure TypeError).
Proof.
  intros project_id Hunknown Hc. unfold format_update, format_messages in *.
  rewrite Hc.
  fold project_id. destruct project_id as [|b|z|k|items|items] eqn:E; simpl.
  - repeat split; congruence.
  - destruct b; simpl; repeat split; congruence.
  - destruct (negb (z =? 0)%Z); simpl; repeat split; congruence.
  - rewrite (Hunknown k eq_refl).
    rewrite bool_decide_eq_false_2 by (intros [? ?]; discriminate).
    destruct (negb (k =? "")%string); simpl; repeat split; congruence.
  - destruct (negb (length items =? 0)); simpl; repeat split; congruence.
  - destruct (negb (length items =? 0)); simpl; repeat split; congruence.
Qed.

(** C7. Summarize, action items, sentiment and generate email leave
    [projects] and [project_messages] as they were, whatever the body
    holds under [project_id] and whatever the completion does. *)
Theorem generation_handlers_leave_store data complete s :
  snd (summarize_project data complete s) = s /\
  snd (extract_action_items data complete s) = s /\
  snd (analyze_sentiment data complete s) = s /\
  snd (generate_email data complete s) = s.
Proof. apply generation_snd. Qed.

(** C8. The messages endpoint never fails and never changes the
    stores: for an id that is not a key it answers with the empty list,
    for a key with that key's list. *)
Theorem get_project_messages_unknown_or_known project_id s :
  snd (get_project_messages project_id s) = s
  /\ (project_messages s !! project_id = None ->
      fst (get_project_messages project_id s) = Response (PList []))
  /\ (forall l, project_messages s !! project_id = Some l ->
      fst (get_project_messages project_id s)
      = Response (PList (message_json <$> l))).
Proof.
  unfold get_project_messages. simpl. repeat split.
  - intros H. now rewrite H.
  - intros l H. now rewrite H.
Qed.


(** C10. When the body binds [name], the created project takes that
    value as its name, also when the value is [null]; the numbered
    default is not used. *)
Theorem create_project_keeps_given_name data random s v :
  data !! "name" = Some v ->
  create_project data random s
  = (Response (project_json (Project (uuid_str (uuid4 random)) v)),
     Store (projects s ++ [Project (uuid_str (uuid4 random)) v])
       (<[uuid_str (uuid4 random) := []]> (project_messages s)))
  /\ (v = PNone ->
      proj_name <$> last (projects (snd (create_project data random s)))
      = Some PNone).
Proof.
  intros Hv. unfold create_project, get. rewrite Hv. split; [reflexivity |].
  intros ->. simpl. now rewrite last_snoc.
Qed.

(** ** More about the handlers *)

Lemma serve_app reqs1 reqs2 : forall s,
  serve (reqs1 ++ reqs2) s = serve reqs2 (serve reqs1 s).
Proof.
  induction reqs1 as [|r reqs1 IH]; intros s; [reflexivity |].
  simpl. apply IH.
Qed.

Lemma draws_app reqs1 reqs2 : draws (reqs1 ++ reqs2) = draws reqs1 ++ draws reqs2.
Proof.
  induction reqs1 as [|r reqs1 IH]; [reflexivity |].
  rewrite <- app_comm_cons, (draws_cons r (reqs1 ++ reqs2)), (draws_cons r reqs1).
  now rewrite IH, app_assoc.
Qed.

(** What one request adds to [projects]. *)
Lemma handle_projects_grow r s :
  exists new,
    projects (snd (handle r s)) = projects s ++ new
    /\ proj_id <$> new = (fun n => uuid_str (uuid4 n)) <$> draws [r].
Proof.
  destruct r; simpl;
    try (exists []; split; [now rewrite app_nil_r | reflexivity]).
  - eexists [_]. split; reflexivity.
  - exists []. rewrite app_nil_r.
    split; [apply (format_update_frame data complete s) | reflexivity].
  - exists []. rewrite app_nil_r.
    now rewrite (proj1 (generation_snd data complete s)).
  - exists []. rewrite app_nil_r.
    now rewrite (proj1 (proj2 (generation_snd data complete s))).
  - exists []. rewrite app_nil_r.
    now rewrite (proj1 (proj2 (proj2 (generation_snd data complete s)))).
  - exists []. rewrite app_nil_r.
    now rewrite (proj2 (proj2 (proj2 (generation_snd data complete s)))).
Qed.

(** What [format_update] can do to the stores: nothing, or append the
    pair to the list of one key. *)
Lemma format_update_cases data complete s :
  (snd (format_update data complete s) = s
   /\ forall body, fst (format_update data complete s) = Response body ->
        exists formatted,
          complete "gpt-4" (format_messages data) = Some formatted
          /\ body = PDict [("formatted", PStr formatted)])
  \/ exists k old formatted,
       k <> ""
       /\ get data "project_id" PNone = PStr k
       /\ project_messages s !! k = Some old
       /\ complete "gpt-4" (format_messages data) = Some formatted
       /\ format_update data complete s
          = (Response (PDict [("formatted", PStr formatted)]),
             Store (projects s)
               (<[k := old ++ [Message "user" (get data "update" PNone);
                               Message "bot" (PStr formatted)]]>
                  (project_messages s))).
Proof.
  destruct (complete "gpt-4" (format_messages data)) as [formatted|] eqn:Hc.
  2:{ left. unfold format_update, format_messages in *. rewrite Hc.
      split; [reflexivity | discriminate]. }
  destruct (get data "project_id" PNone) as [|b|z|k|items|items] eqn:Hid.
  4:{ destruct (decide (k = "")) as [->|Hk].
      - left. unfold format_update, format_messages in *. rewrite Hc, Hid.
        simpl. split; [reflexivity |]. intros body [= <-]. eauto.
      - destruct (project_messages s !! k) as [old|] eqn:Hold.
        + right. exists k, old, formatted. repeat split; try assumption.
          now apply format_update_known.
        + left. unfold format_update, format_messages in *. rewrite Hc, Hid.
          simpl. rewrite Hold.
          rewrite bool_decide_eq_false_2 by (intros [? ?]; discriminate).
          destruct (negb (k =? "")%string); simpl;
            (split; [reflexivity |]); intros body [= <-]; eauto. }
  all: left; unfold format_update, format_messages in *; rewrite Hc, Hid; simpl.
  - split; [reflexivity |]. intros body [= <-]. eauto.
  - destruct b; simpl; (split; [reflexivity |]); intros body [= <-]; eauto.
  - destruct (negb (z =? 0)%Z); simpl; (split; [reflexivity |]);
      intros body [= <-]; eauto.
  - destruct (negb (length items =? 0)); simpl; (split; [reflexivity |]);
      intros body; [discriminate | intros [= <-]; eauto].
  - destruct (negb (length items =? 0)); simpl; (split; [reflexivity |]);
      intros body; [discriminate | intros [= <-]; eauto].
Qed.

Lemma handle_projects_keyed r s :
  (forall p, p ∈ projects s -> is_Some (project_messages s !! proj_id p)) ->
  forall p, p ∈ projects (snd (handle r s)) ->
    is_Some (project_messages (snd (handle r s)) !! proj_id p).
Proof.
  intros Hs. destruct r; simpl; try exact Hs.
  - intros p Hp. apply elem_of_app in Hp as [Hp|Hp].
    + destruct (decide (uuid_str (uuid4 random) = proj_id p)) as [->|Hne].
      * rewrite lookup_insert_eq. eauto.
      * rewrite lookup_insert_ne by assumption. now apply Hs.
    + apply list_elem_of_singleton in Hp as ->. simpl.
      rewrite lookup_insert_eq. eauto.
  - destruct (format_update_frame data complete s) as [Hp Hm].
    intros p. rewrite Hp, Hm. apply Hs.
  - now rewrite (proj1 (generation_snd data complete s)).
  - now rewrite (proj1 (proj2 (generation_snd data complete s))).
  - now rewrite (proj1 (proj2 (proj2 (generation_snd data complete s)))).
  - now rewrite (proj2 (proj2 (proj2 (generation_snd data complete s)))).
Qed.

(** One request of a run in which [uuid4] draws no UUID twice only
    extends the lists of [project_messages]. *)
Lemma handle_extends_lists reqs r k l :
  NoDup (uuid4 <$> draws (reqs ++ [r])) ->
  project_messages (serve reqs initial) !! k = Some l ->
  exists more,
    project_messages (snd (handle r (serve reqs initial))) !! k
    = Some (l ++ more).
Proof.
  intros Hnd Hk. set (s := serve reqs initial) in *.
  assert (Hsame : forall s', s' = s ->
            exists more, project_messages s' !! k = Some (l ++ more)).
  { intros s' ->. exists []. now rewrite app_nil_r. }
  destruct r; simpl; try (now apply Hsame).
  - exists []. rewrite app_nil_r, lookup_insert_ne; [exact Hk |].
    intros <-.
    rewrite draws_app, fmap_app in Hnd. apply NoDup_app in Hnd as (_ & Hnew & _).
    assert (Hin : uuid_str (uuid4 random)
                  ∈ (fun n => uuid_str (uuid4 n)) <$> draws reqs).
    { destruct (serve_keys_known reqs initial initial_keys_known
                  (uuid_str (uuid4 random))) as [_ (p & Hp & Hid)];
        [fold s; rewrite Hk; eauto |].
      rewrite <- Hid. pose proof (serve_projects reqs initial) as E.
      simpl in E. rewrite <- E. now apply list_elem_of_fmap_2. }
    apply list_elem_of_fmap in Hin as (n & E & Hn).
    apply uuid_str_inj in E.
    apply (Hnew (uuid4 random)).
    + rewrite E. now apply list_elem_of_fmap_2.
    + simpl. apply list_elem_of_singleton. reflexivity.
  - destruct (format_update_cases data complete s)
      as [[E _]|(k0 & old & formatted & _ & _ & Hold & _ & E)]; rewrite E;
      [now apply Hsame |].
    simpl. destruct (decide (k0 = k)) as [<-|Hne].
    + rewrite lookup_insert_eq. rewrite Hold in Hk. injection Hk as <-. eauto.
    + rewrite lookup_insert_ne by assumption. exists []. now rewrite app_nil_r.
  - apply Hsame, (generation_snd data complete s).
  - apply Hsame, (generation_snd data complete s).
  - apply Hsame, (generation_snd data complete s).
  - apply Hsame, (generation_snd data complete s).
Qed.

(** X1. No request removes, changes or reorders an entry of
    [projects]: a run only appends, one entry per creation, and the
    ids appended are the strings of the UUIDs drawn, in that order. *)
Theorem projects_only_grow reqs : forall s,
  exists new,
    projects (serve reqs s) = projects s ++ new
    /\ proj_id <$> new = (fun n => uuid_str (uuid4 n)) <$> draws reqs.
Proof.
  induction reqs as [|r reqs IH]; intros s.
  - exists []. split; [now rewrite app_nil_r | reflexivity].
  - destruct (handle_projects_grow r s) as (n1 & E1 & I1).
    destruct (IH (snd (handle r s))) as (n2 & E2 & I2).
    exists (n1 ++ n2). simpl serve. rewrite E2, E1, app_assoc.
    split; [reflexivity |].
    now rewrite fmap_app, I1, I2, (draws_cons r reqs), fmap_app.
Qed.

(** X2. When [uuid4] draws no UUID twice in a run, no two entries of
    [projects] have the same id. *)
Theorem project_ids_distinct reqs :
  NoDup (uuid4 <$> draws reqs) ->
  NoDup (proj_id <$> projects (serve reqs initial)).
Proof.
  intros Hnd. rewrite serve_projects. simpl.
  change (fun n => uuid_str (uuid4 n)) with (uuid_str ∘ uuid4).
  rewrite list_fmap_compose.
  apply NoDup_fmap_2_strong; [|exact Hnd].
  intros x y Hx Hy E.
  apply list_elem_of_fmap in Hx as (a & -> & _).
  apply list_elem_of_fmap in Hy as (b & -> & _).
  now apply uuid_str_inj.
Qed.

(** X3. After any run, the id of every entry of [projects] is a key
    of [project_messages], so the messages endpoint answers for it
    with its stored list. *)
Theorem listed_projects_have_message_lists reqs p :
  p ∈ projects (serve reqs initial) ->
  exists l,
    project_messages (serve reqs initial) !! proj_id p = Some l
    /\ fst (get_project_messages (proj_id p) (serve reqs initial))
       = Response (PList (message_json <$> l)).
Proof.
  intros Hp.
  assert (Hall : forall reqs s,
            (forall p, p ∈ projects s -> is_Some (project_messages s !! proj_id p)) ->
            forall p, p ∈ projects (serve reqs s) ->
              is_Some (project_messages (serve reqs s) !! proj_id p)).
  { clear. induction reqs as [|r reqs IH]; intros s Hs; [exact Hs |].
    simpl. apply IH. now apply handle_projects_keyed. }
  destruct (Hall reqs initial) with (p := p) as [l Hl]; [|exact Hp |].
  { intros q Hq. simpl in Hq. now apply elem_of_nil in Hq. }
  exists l. split; [exact Hl |].
  unfold get_project_messages. simpl. now rewrite Hl.
Qed.

(** X5. In a run in which [uuid4] draws no UUID twice, a list of
    [project_messages] is never shortened or rewritten: what a key
    holds at some point is a prefix of what it holds later. *)
Theorem message_lists_only_grow reqs2 : forall reqs1 k l,
  NoDup (uuid4 <$> draws (reqs1 ++ reqs2)) ->
  project_messages (serve reqs1 initial) !! k = Some l ->
  exists more,
    project_messages (serve (reqs1 ++ reqs2) initial) !! k = Some (l ++ more).
Proof.
  induction reqs2 as [|r reqs2 IH]; intros reqs1 k l Hnd Hl.
  - exists []. now rewrite !app_nil_r.
  - replace (reqs1 ++ r :: reqs2) with ((reqs1 ++ [r]) ++ reqs2) in *
      by now rewrite <- app_assoc.
    destruct (handle_extends_lists reqs1 r k l) as [m1 H1]; [|exact Hl |].
    { rewrite draws_app, fmap_app in Hnd. now apply NoDup_app in Hnd as [? _]. }
    destruct (IH (reqs1 ++ [r]) k (l ++ m1) Hnd) as [m2 H2].
    { rewrite serve_app. exact H1. }
    exists (m1 ++ m2). now rewrite app_assoc.
Qed.

(** X6. On any stores, a creation followed by a format call that
    carries the id the creation answered, with the provider answering
    [formatted], leaves exactly two messages under that id: the
    [user] entry with the update and the [bot] entry with [formatted]. *)
Theorem create_then_format_stores_pair
    data random s body complete formatted :
  let id := uuid_str (uuid4 random) in
  let s1 := snd (create_project data random s) in
  let s2 := snd (format_update body complete s1) in
  body !! "project_id" = Some (PStr id) ->
  complete "gpt-4" (format_messages body) = Some formatted ->
  fst (format_update body complete s1)
  = Response (PDict [("formatted", PStr formatted)])
  /\ project_messages s2 !! id
     = Some [Message "user" (get body "update" PNone);
             Message "bot" (PStr formatted)]
  /\ projects s2 = projects s1.
Proof.
  intros id s1 s2 Hid Hc.
  assert (E : format_update body complete s1
              = (Response (PDict [("formatted", PStr formatted)]),
                 Store (projects s1)
                   (<[id := [] ++ [Message "user" (get body "update" PNone);
                                   Message "bot" (PStr formatted)]]>
                      (project_messages s1)))).
  { apply format_update_known; try assumption.
    - apply uuid_str_nonempty.
    - unfold get. now rewrite Hid.
    - subst s1. simpl. apply lookup_insert_eq. }
  subst s2. rewrite E. simpl. repeat split. apply lookup_insert_eq.
Qed.

(** X7. On any stores, right after a creation the projects endpoint
    lists what it listed before followed by the body the creation
    answered, and the messages endpoint answers the empty list for the
    new id. *)
Theorem create_then_list data random s :
  let s1 := snd (create_project data random s) in
  exists body,
    fst (create_project data random s) = Response body
    /\ fst (get_projects s1)
       = Response (PList ((project_json <$> projects s) ++ [body]))
    /\ fst (get_project_messages (uuid_str (uuid4 random)) s1)
       = Response (PList []).
Proof.
  intros s1. eexists. split; [reflexivity |]. subst s1. split.
  - unfold get_projects. simpl. now rewrite fmap_app.
  - unfold get_project_messages. simpl. now rewrite lookup_insert_eq.
Qed.

(** X8. A format call is all or nothing.  It never raises [KeyError];
    when it fails the stores are what they were; and when it answers,
    the answer is the provider's text and the stores are either what
    they were or hold, under the one key named by [project_id], the
    old list followed by the [user] and the [bot] entry. *)
Theorem format_update_all_or_nothing data complete s :
  (forall e, fst (format_update data complete s) = Failure e ->
     e <> KeyError /\ snd (format_update data complete s) = s)
  /\ (forall body, fst (format_update data complete s) = Response body ->
     exists formatted,
       complete "gpt-4" (format_messages data) = Some formatted
       /\ body = PDict [("formatted", PStr formatted)]
       /\ (snd (format_update data complete s) = s
           \/ exists k old,
                get data "project_id" PNone = PStr k
                /\ project_messages s !! k = Some old
                /\ snd (format_update data complete s)
                   = Store (projects s)
                       (<[k := old ++ [Message "user" (get data "update" PNone);
                                       Message "bot" (PStr formatted)]]>
                          (project_messages s)))).
Proof.
  split.
  - intros e He.
    destruct (format_update_cases data complete s)
      as [[E _]|(k & old & formatted & _ & _ & _ & _ & E)].
    + split; [|exact E]. intros ->.
      unfold format_update in He.
      destruct (complete _ _) as [formatted|]; [|discriminate He].
      destruct (get data "project_id" PNone) as [|b|z|k|items|items];
        simpl in He; try discriminate He.
      * now destruct b.
      * now destruct (negb (z =? 0)%Z).
      * destruct (negb (k =? "")%string); [|discriminate He]. simpl in He.
        destruct (project_messages s !! k) as [l|] eqn:El.
        -- rewrite bool_decide_eq_true_2 in He by eauto.
           rewrite lookup_insert_eq in He. discriminate He.
        -- rewrite bool_decide_eq_false_2 in He
             by (intros [? ?]; discriminate).
           discriminate He.
      * now destruct (negb (length items =? 0)).
      * now destruct (negb (length items =? 0)).
    + rewrite E in He. discriminate He.
  - intros body Hb.
    destruct (format_update_cases data complete s)
      as [[E Hr]|(k & old & formatted & _ & Hid & Hold & Hc & E)].
    + destruct (Hr body Hb) as (formatted & Hc & ->).
      exists formatted. repeat split; try assumption. now left.
    + exists formatted. rewrite E in Hb. injection Hb as <-.
      repeat split; try assumption. right. exists k, old.
      repeat split; try assumption. now rewrite E.
Qed.

(** X9. A format call whose [project_id] is falsy (absent, [null],
    [false], [0], the empty text, an empty array or object) stores
    nothing and answers with the provider's text, whatever the keys of
    [project_messages] are. *)
Theorem format_update_falsy_id data complete s formatted :
  truthy (get data "project_id" PNone) = false ->
  complete "gpt-4" (format_messages data) = Some formatted ->
  format_update data complete s
  = (Response (PDict [("formatted", PStr formatted)]), s).
Proof.
  intros Hf Hc. unfold format_update, format_messages in *.
  now rewrite Hc, Hf.
Qed.

(** X10. Each text-generation handler asks the provider once, for
    model [gpt-4] with the system and user message of its template:
    two providers that agree on that one call give the same answer
    and the same stores. *)
Theorem handlers_make_one_call data complete1 complete2 s :
  (complete1 "gpt-4" (format_messages data)
   = complete2 "gpt-4" (format_messages data) ->
   format_update data complete1 s = format_update data complete2 s)
  /\ (complete1 "gpt-4" (summarize_messages data)
      = complete2 "gpt-4" (summarize_messages data) ->
      summarize_project data complete1 s = summarize_project data complete2 s)
  /\ (complete1 "gpt-4" (action_items_messages data)
      = complete2 "gpt-4" (action_items_messages data) ->
      extract_action_items data complete1 s
      = extract_action_items data complete2 s)
  /\ (complete1 "gpt-4" (sentiment_messages data)
      = complete2 "gpt-4" (sentiment_messages data) ->
      analyze_sentiment data complete1 s = analyze_sentiment data complete2 s)
  /\ (complete1 "gpt-4" (email_messages data)
      = complete2 "gpt-4" (email_messages data) ->
      generate_email data complete1 s = generate_email data complete2 s).
Proof.
  unfold format_messages, summarize_messages, action_items_messages,
    sentiment_messages, email_messages, format_update, summarize_project,
    extract_action_items, analyze_sentiment, generate_email.
  repeat split; intros ->; reflexivity.
Qed.

(** X11. The stores a run ends with depend on its creations and its
    format calls only: every other request can be left out. *)
Theorem reads_do_not_matter reqs : forall s,
  serve (List.filter writes reqs) s = serve reqs s.
Proof.
  induction reqs as [|r reqs IH]; intros s; [reflexivity |].
  destruct r; simpl; rewrite ?IH; try reflexivity.
  - now rewrite (proj1 (generation_snd data complete s)).
  - now rewrite (proj1 (proj2 (generation_snd data complete s))).
  - now rewrite (proj1 (proj2 (proj2 (generation_snd data complete s)))).
  - now rewrite (proj2 (proj2 (proj2 (generation_snd data complete s)))).
Qed.

(** X12. [strip()] changes nothing the second time, gives the empty
    text for a text of white space only, and leaves a text as it is
    exactly when the text neither starts nor ends with white space;
    so the sentiment handler answers with the provider's very text
    exactly in that case. *)
Theorem strip_fixed_points data complete s text :
  strip (strip text) = strip text
  /\ (lstrip text = "" -> strip text = "")
  /\ (strip text = text
      <-> leading_space false text = None
          /\ leading_space true (String.rev text) = None)
  /\ (complete "gpt-4" (sentiment_messages data) = Some text ->
      (fst (analyze_sentiment data complete s)
       = Response (PDict [("sentiment", PStr text)])
       <-> leading_space false text = None
           /\ leading_space true (String.rev text) = None)).
Proof.
  assert (Hfix : forall t,
            leading_space false t = None ->
            leading_space true (String.rev t) = None -> strip t = t).
  { intros t H1 H2. unfold strip, rstrip, lstrip.
    rewrite (drop_spaces_step false t), H1.
    rewrite (drop_spaces_step true (String.rev t)), H2.
    apply rev_involutive. }
  assert (Hiff : strip text = text
                 <-> leading_space false text = None
                     /\ leading_space true (String.rev text) = None).
  { split.
    - intros E. destruct (strip_spec text) as (H1 & H2 & _).
      rewrite E in H1, H2. now split.
    - intros [H1 H2]. now apply Hfix. }
  split; [|split; [|split]].
  - destruct (strip_spec text) as (H1 & H2 & _). now apply Hfix.
  - intros E. unfold strip. now rewrite E.
  - exact Hiff.
  - intros Hc. unfold analyze_sentiment, sentiment_messages in *.
    rewrite Hc. simpl. rewrite <- Hiff. split.
    + now intros [= ->].
    + now intros ->.
Qed.

(** X13. Names are not kept apart: after a creation named like the
    next numbered default, a creation without a name gets that same
    name. *)
Theorem default_name_can_repeat random1 random2 s :
  let name :=
    PStr ("Project " +:+ int_str (Z.of_nat (length (projects s)) + 2)) in
  let s1 := snd (create_project {["name" := name]} random1 s) in
  let s2 := snd (create_project ∅ random2 s1) in
  exists id1 id2,
    projects s2 = projects s ++ [Project id1 name; Project id2 name].
Proof.
  intros name s1 s2.
  exists (uuid_str (uuid4 random1)), (uuid_str (uuid4 random2)).
  subst s2 s1 name. unfold create_project. cbn [snd projects]. unfold get.
  rewrite lookup_singleton_eq, lookup_empty, length_app. cbn [length].
  rewrite <- app_assoc. cbn [app].
  replace (Z.of_nat (length (projects s) + 1) + 1)%Z
    with (Z.of_nat (length (projects s)) + 2)%Z by lia.
  reflexivity.
Qed.

(** X14. The format and the summarize prompt keep updates apart: two
    update texts that give the same prompt are the same text. *)
Theorem one_slot_prompts_injective (a b : string) :
  (format_prompt (PStr a) = format_prompt (PStr b) -> a = b)
  /\ (summary_prompt (PStr a) = summary_prompt (PStr b) -> a = b).
Proof.
  unfold format_prompt, summary_prompt. simpl py_str.
  split; intros E; apply String.app_inj in E;
    now apply append_last_inj in E as [E _].
Qed.

(** X15. The prompts with several slots do not keep their slots
    apart: a project name that goes on with a line break and
    [Updates: ] gives the same prompt as the shorter name with the
    longer updates. *)
Theorem slots_can_be_confused (a b c : string) (sentiment : pyval) :
  action_items_prompt (PStr (a +:+ "
Updates: " +:+ b)) (PStr c)
  = action_items_prompt (PStr a) (PStr (b +:+ "
Updates: " +:+ c))
  /\ sentiment_prompt (PStr (a +:+ "
Updates: " +:+ b)) (PStr c)
     = sentiment_prompt (PStr a) (PStr (b +:+ "
Updates: " +:+ c))
  /\ email_prompt sentiment (PStr (a +:+ "
Updates: " +:+ b)) (PStr c)
     = email_prompt sentiment (PStr a) (PStr (b +:+ "
Updates: " +:+ c)).
Proof.
  unfold action_items_prompt, sentiment_prompt, email_prompt.
  cbn [py_str]. repeat split; now rewrite !append_assoc.
Qed.

(** X16. A creation makes no check on the id: when [uuid4] draws the
    id of a listed project again, the new entry is appended all the
    same, so the id is listed twice, and the project's messages are
    replaced by the empty list. *)
Theorem create_project_on_taken_id data random s p l :
  p ∈ projects s ->
  proj_id p = uuid_str (uuid4 random) ->
  project_messages s !! proj_id p = Some l ->
  let s1 := snd (create_project data random s) in
  project_messages s1 !! proj_id p = Some []
  /\ exists q, projects s1 = projects s ++ [q] /\ proj_id q = proj_id p.
Proof.
  intros Hp Hid Hl s1. subst s1. simpl. rewrite Hid. split.
  - apply lookup_insert_eq.
  - eexists. split; reflexivity.
Qed.

(** The digit of [hex] at a position is the matching base-16 digit
    of the number. *)
Lemma hex_get (w : nat) : forall n k,
  k < w ->
  String.get k (hex w n)
  = Some (hex_digit ((n / 16 ^ N.of_nat (w - 1 - k)) mod 16)%N).
Proof.
  induction w as [|w IH]; intros n k Hk; [lia |]. simpl hex.
  destruct (decide (k = w)) as [->|Hne].
  - pose proof (append_correct2 (hex w (n / 16)) (String (hex_digit (n mod 16)) "") 0)
      as E. rewrite hex_length in E. simpl in E. rewrite <- E.
    replace (S w - 1 - w) with 0 by lia. simpl. now rewrite N.div_1_r.
  - rewrite <- append_correct1 by (rewrite hex_length; lia).
    rewrite IH by lia. do 3 f_equal.
    replace (S w - 1 - k) with (S (w - 1 - k)) by lia.
    rewrite Nat2N.inj_succ, N.pow_succ_r', N.Div0.div_div. reflexivity.
Qed.

(** Where the digits of [hex 32 u] and the hyphens sit in [uuid_str u]. *)
Lemma uuid_str_layout (u : N) :
  String.get 8 (uuid_str u) = Some "-"%char
  /\ String.get 13 (uuid_str u) = Some "-"%char
  /\ String.get 18 (uuid_str u) = Some "-"%char
  /\ String.get 23 (uuid_str u) = Some "-"%char
  /\ String.get 14 (uuid_str u) = String.get 12 (hex 32 u)
  /\ String.get 19 (uuid_str u) = String.get 16 (hex 32 u).
Proof.
  unfold uuid_str. generalize (hex_length 32 u). generalize (hex 32 u).
  intros h L. explode_string h L. repeat split.
Qed.

(** The version digit of [uuid4] is 4. *)
Lemma uuid4_version (random : N) :
  ((uuid4 random / 16 ^ 19) mod 16 = 4)%N.
Proof.
  change (16 ^ 19)%N with (2 ^ 76)%N. change 16%N with (2 ^ 4)%N.
  apply N.bits_inj. intros i. destruct (N.lt_ge_cases i 4) as [Hi|Hi].
  - rewrite N.mod_pow2_bits_low by assumption. rewrite N.div_pow2_bits.
    unfold uuid4. rewrite N.lor_spec, N.ldiff_spec, N.lor_spec, N.ldiff_spec.
    assert (Hcases : (i = 0 \/ i = 1 \/ i = 2 \/ i = 3)%N) by lia.
    destruct Hcases as [-> | [-> | [-> | ->]]];
      now destruct (N.testbit (random mod 2 ^ 128) _).
  - rewrite N.mod_pow2_bits_high by assumption.
    symmetry. apply N.bits_above_log2. now apply N.lt_le_trans with 4%N.
Qed.

(** The variant digit of [uuid4] is 8, 9, 10 or 11. *)
Lemma uuid4_variant (random : N) :
  ((uuid4 random / 16 ^ 15) mod 16 = N.lor 8 ((random / 2 ^ 60) mod 4))%N.
Proof.
  change (16 ^ 15)%N with (2 ^ 60)%N. change 16%N with (2 ^ 4)%N.
  change 4%N with (2 ^ 2)%N.
  apply N.bits_inj. intros i. rewrite N.lor_spec.
  destruct (N.lt_ge_cases i 4) as [Hi|Hi].
  - rewrite N.mod_pow2_bits_low by assumption. rewrite N.div_pow2_bits.
    unfold uuid4. rewrite N.lor_spec, N.ldiff_spec, N.lor_spec, N.ldiff_spec.
    assert (Hcases : (i = 0 \/ i = 1 \/ i = 2 \/ i = 3)%N) by lia.
    destruct Hcases as [-> | [-> | [-> | ->]]].
    + rewrite N.mod_pow2_bits_low, N.mod_pow2_bits_low, N.div_pow2_bits by lia.
      now destruct (N.testbit random _).
    + rewrite N.mod_pow2_bits_low, N.mod_pow2_bits_low, N.div_pow2_bits by lia.
      now destruct (N.testbit random _).
    + rewrite (N.mod_pow2_bits_high _ 2 2) by lia.
      now destruct (N.testbit (random mod 2 ^ 128) _).
    + rewrite (N.mod_pow2_bits_high _ 2 3) by lia.
      now destruct (N.testbit (random mod 2 ^ 128) _).
  - rewrite !N.mod_pow2_bits_high by lia.
    rewrite (N.bits_above_log2 8 i) by (now apply N.lt_le_trans with 4%N).
    reflexivity.
Qed.

(** X17. The id a creation answers has the shape of a version-4 UUID:
    36 characters, hyphens at positions 8, 13, 18 and 23, the digit 4
    at position 14, and one of 8, 9, a, b at position 19. *)
Theorem created_id_is_uuid4_shaped data random s :
  let id := uuid_str (uuid4 random) in
  (exists name,
     fst (create_project data random s)
     = Response (PDict [("id", PStr id); ("name", name)]))
  /\ String.length id = 36
  /\ String.get 8 id = Some "-"%char /\ String.get 13 id = Some "-"%char
  /\ String.get 18 id = Some "-"%char /\ String.get 23 id = Some "-"%char
  /\ String.get 14 id = Some "4"%char
  /\ (exists c, String.get 19 id = Some c
                /\ (c = "8" \/ c = "9" \/ c = "a" \/ c = "b")%char).
Proof.
  intros id. subst id.
  destruct (uuid_str_layout (uuid4 random)) as (H8 & H13 & H18 & H23 & H14 & H19).
  split; [eexists; reflexivity |]. split; [apply uuid_str_length |].
  repeat (split; [assumption |]). split.
  - rewrite H14, hex_get by lia.
    change (N.of_nat (32 - 1 - 12)) with 19%N. now rewrite uuid4_version.
  - rewrite H19, hex_get by lia.
    change (N.of_nat (32 - 1 - 16)) with 15%N. rewrite uuid4_variant.
    eexists. split; [reflexivity |].
    assert (Hlt : ((random / 2 ^ 60) mod 4 < 4)%N) by (apply N.mod_lt; lia).
    generalize dependent ((random / 2 ^ 60) mod 4)%N. intros x Hlt.
    assert (Hcases : (x = 0 \/ x = 1 \/ x = 2 \/ x = 3)%N) by lia.
    destruct Hcases as [-> | [-> | [-> | ->]]]; simpl; tauto.
Qed.

End Handlers.

(** ** The handlers at work *)

(** A run: one creation, then a format call for the new project. *)
Example format_after_create :
  let id := "00000000-0000-4000-8000-000000000000" in
  let body : gmap string pyval :=
    {["update" := PStr "X"; "project_id" := PStr id]} in
  serve (fun _ => "")
    [CreateProject ∅ 0; FormatUpdate body (always "ok")] initial
  = Store [Project id (PStr "Project 1")]
      {[id := [Message "user" (PStr "X"); Message "bot" (PStr "ok")]]}.
Proof. vm_compute. reflexivity. Qed.

(** C1 at work: the format call of the run above. *)
Lemma format_update_appends_user_then_bot_witness :
  let id := "00000000-0000-4000-8000-000000000000" in
  let body : gmap string pyval :=
    {["update" := PStr "X"; "project_id" := PStr id]} in
  let s := serve (fun _ => "") [CreateProject ∅ 0] initial in
  project_messages s !! id = Some []
  /\ format_update (fun _ => "") body (always "ok") s
     = (Response (PDict [("formatted", PStr "ok")]),
        Store [Project id (PStr "Project 1")]
          {[id := [Message "user" (PStr "X"); Message "bot" (PStr "ok")]]}).
Proof.
  intros id body s.
  assert (H1 : body !! "project_id" = Some (PStr id)) by (vm_compute; reflexivity).
  assert (H2 : project_messages s !! id = Some []) by (vm_compute; reflexivity).
  assert (H3 : always "ok" "gpt-4" (format_messages (fun _ => "") body) = Some "ok")
    by reflexivity.
  split; [exact H2 |].
  destruct (format_update_appends_user_then_bot (fun _ => "")
              [CreateProject ∅ 0] body (always "ok") id [] "ok" H1 H2 H3)
    as [E _].
  etransitivity; [exact E |]. vm_compute. reflexivity.
Defined.

(** C2 at work: the provider is down. *)
Lemma format_update_provider_failure_witness :
  format_update (fun _ => "") {["update" := PStr "X"]} down initial
  = (Failure ProviderError, initial).
Proof.
  apply (format_update_provider_failure (fun _ => "")
           {["update" := PStr "X"]} down initial).
  reflexivity.
Defined.

(** C3 as written fails: a body without [update] is answered like a
    body whose [update] is the text [None], and unlike a body whose
    [update] is the empty text.  The provider here returns the prompt
    it was sent. *)
Lemma absent_update_is_sent_as_None :
  fst (format_update (fun _ => "") ∅ echo initial)
  = fst (format_update (fun _ => "") {["update" := PStr "None"]} echo initial)
  /\ fst (format_update (fun _ => "") ∅ echo initial)
     <> fst (format_update (fun _ => "") {["update" := PStr ""]} echo initial).
Proof. split; vm_compute; [reflexivity | discriminate]. Qed.

(** C3, amended, at work: a body that holds nothing. *)
Lemma absent_fields_in_prompts_witness :
  format_messages (fun _ => "") ∅
  = format_messages (fun _ => "") {["update" := PStr "None"]}
  /\ email_messages (fun _ => "") ∅
     = email_messages (fun _ => "") {["sentiment" := PStr ""]}.
Proof.
  destruct (absent_fields_in_prompts (fun _ => "") ∅) as (Hu & _ & Hs & _).
  split.
  - apply Hu. reflexivity.
  - apply Hs. reflexivity.
Defined.

(** C4 at work: the third creation of a run, without a name. *)
Lemma create_project_numbers_and_registers_witness :
  let reqs :=
    [CreateProject ∅ 0; CreateProject {["name" := PStr "Site"]} 1] in
  let s := serve (fun _ => "") reqs initial in
  let id := "00000000-0000-4000-8000-000000000002" in
  (uuid4 2 ∉ uuid4 <$> draws reqs)
  /\ create_project ∅ 2 s
     = (Response (PDict [("id", PStr id); ("name", PStr "Project 3")]),
        Store (projects s ++ [Project id (PStr "Project 3")])
          (<[id := []]> (project_messages s)))
  /\ (id ∉ proj_id <$> projects s)
  /\ project_messages s !! id = None.
Proof.
  intros reqs s id.
  assert (Hfresh : uuid4 2 ∉ uuid4 <$> draws reqs).
  { apply (bool_decide_eq_false_1 (uuid4 2 ∈ uuid4 <$> draws reqs)).
    vm_compute. reflexivity. }
  destruct (create_project_numbers_and_registers (fun _ => "") reqs ∅ 2)
    as (E & _ & _ & _ & F).
  split; [exact Hfresh |]. split; [|exact (F Hfresh)].
  etransitivity; [exact E |]. vm_compute. reflexivity.
Defined.

(** C4 as written fails: two creations whose sixteen random bytes
    differ in a bit that the version field overwrites get the same id,
    so the second id is the id of a listed project. *)
Lemma create_project_can_repeat_an_id :
  let s := serve (fun _ => "") [CreateProject ∅ 0] initial in
  let id := "00000000-0000-4000-8000-000000000000" in
  (0 <> 2 ^ 76)%N
  /\ proj_id <$> projects s = [id]
  /\ fst (create_project ∅ (2 ^ 76) s)
     = Response (PDict [("id", PStr id); ("name", PStr "Project 2")])
  /\ proj_id <$> projects (snd (create_project ∅ (2 ^ 76) s)) = [id; id].
Proof. repeat split; try discriminate; vm_compute; reflexivity. Qed.

(** C5 at work: the key made by one creation. *)
Lemma message_keys_have_projects_witness :
  exists p,
    p ∈ projects (serve (fun _ => "") [CreateProject ∅ 0] initial)
    /\ proj_id p = "00000000-0000-4000-8000-000000000000".
Proof.
  apply (message_keys_have_projects (fun _ => "") [CreateProject ∅ 0]
           "00000000-0000-4000-8000-000000000000").
  vm_compute. eauto.
Defined.

(** C6 as written fails: with an array under [project_id], which is no
    key of the empty [project_messages], the provider answers and the
    handler still fails. *)
Lemma format_update_array_id_fails :
  project_messages initial = ∅
  /\ always "ok" "gpt-4"
       (format_messages (fun _ => "")
          {["update" := PStr "X"; "project_id" := PList [PInt 1]]})
     = Some "ok"
  /\ format_update (fun _ => "")
       {["update" := PStr "X"; "project_id" := PList [PInt 1]]}
       (always "ok") initial
     = (Failure TypeError, initial).
Proof. repeat split. Qed.

(** C6, amended, at work: an id that names no project. *)
Lemma format_update_unknown_id_witness :
  let s := serve (fun _ => "") [CreateProject ∅ 0] initial in
  let body : gmap string pyval :=
    {["update" := PStr "X"; "project_id" := PStr "nope"]} in
  snd (format_update (fun _ => "") body (always "ok") s) = s
  /\ fst (format_update (fun _ => "") body (always "ok") s)
     = Response (PDict [("formatted", PStr "ok")]).
Proof.
  intros s body.
  destruct (format_update_unknown_id (fun _ => "") body (always "ok") s "ok")
    as (Hs & Hr & _).
  - intros k [= <-]. vm_compute. reflexivity.
  - reflexivity.
  - split; [exact Hs |]. apply Hr. reflexivity.
Defined.

(** C7 at work: a summary asked for an existing project. *)
Example summarize_leaves_messages :
  let s := serve (fun _ => "") [CreateProject ∅ 0] initial in
  summarize_project (fun _ => "")
    {["update" := PStr "X";
      "project_id" := PStr "00000000-0000-4000-8000-000000000000"]}
    (always "ok") s
  = (Response (PDict [("summary", PStr "ok")]), s).
Proof. vm_compute. reflexivity. Qed.

(** C8 at work: an unknown id and a known one. *)
Lemma get_project_messages_unknown_or_known_witness :
  let s := Store [Project "p" (PStr "Site")]
             {["p" := [Message "user" (PStr "X")]]} in
  fst (get_project_messages "q" s) = Response (PList [])
  /\ fst (get_project_messages "p" s)
     = Response (PList [PDict [("role", PStr "user"); ("content", PStr "X")]]).
Proof.
  intros s.
  destruct (get_project_messages_unknown_or_known "q" s) as (_ & Hq & _).
  destruct (get_project_messages_unknown_or_known "p" s) as (_ & _ & Hp).
  split.
  - apply Hq. vm_compute. reflexivity.
  - apply (Hp [Message "user" (PStr "X")]). vm_compute. reflexivity.
Defined.


(** C10 at work: a body whose [name] is [null]. *)
Lemma create_project_keeps_given_name_witness :
  fst (create_project {["name" := PNone]} 0 initial)
  = Response (PDict [("id", PStr "00000000-0000-4000-8000-000000000000");
                     ("name", PNone)]).
Proof.
  destruct (create_project_keeps_given_name {["name" := PNone]} 0 initial PNone)
    as [E _]; [reflexivity |].
  rewrite E. vm_compute. reflexivity.
Defined.

(** X2 at work: two creations with different draws. *)
Lemma project_ids_distinct_witness :
  NoDup (uuid4 <$> draws [CreateProject ∅ 0; CreateProject ∅ 1])
  /\ NoDup (proj_id <$> projects
              (serve (fun _ => "") [CreateProject ∅ 0; CreateProject ∅ 1] initial)).
Proof.
  assert (H : NoDup (uuid4 <$> draws [CreateProject ∅ 0; CreateProject ∅ 1])).
  { apply (bool_decide_eq_true_1 (NoDup _)). vm_compute. reflexivity. }
  split; [exact H |].
  exact (project_ids_distinct (fun _ => "")
           [CreateProject ∅ 0; CreateProject ∅ 1] H).
Defined.

(** X3 at work: the project made by one creation. *)
Lemma listed_projects_have_message_lists_witness :
  let s := serve (fun _ => "") [CreateProject ∅ 0] initial in
  let id := "00000000-0000-4000-8000-000000000000" in
  exists l,
    project_messages s !! id = Some l
    /\ fst (get_project_messages id s) = Response (PList (message_json <$> l)).
Proof.
  intros s id.
  apply (listed_projects_have_message_lists (fun _ => "")
           [CreateProject ∅ 0] (Project id (PStr "Project 1"))).
  vm_compute. constructor.
Defined.

(** X5 at work: a list of two messages, then another creation and
    another format call. *)
Lemma message_lists_only_grow_witness :
  let id := "00000000-0000-4000-8000-000000000000" in
  let format (text : string) :=
    FormatUpdate {["update" := PStr text; "project_id" := PStr id]}
      (always "ok") in
  let l := [Message "user" (PStr "X"); Message "bot" (PStr "ok")] in
  exists more,
    project_messages
      (serve (fun _ => "")
         ([CreateProject ∅ 0; format "X"] ++ [CreateProject ∅ 1; format "Y"])
         initial) !! id
    = Some (l ++ more).
Proof.
  intros id format l.
  apply (message_lists_only_grow (fun _ => "")
           [CreateProject ∅ 1; format "Y"] [CreateProject ∅ 0; format "X"] id l).
  - apply (bool_decide_eq_true_1 (NoDup _)). vm_compute. reflexivity.
  - vm_compute. reflexivity.
Defined.

(** X6 at work: a creation and a format call on the initial stores. *)
Lemma create_then_format_stores_pair_witness :
  let id := "00000000-0000-4000-8000-000000000000" in
  let body : gmap string pyval :=
    {["update" := PStr "X"; "project_id" := PStr id]} in
  let s1 := snd (create_project ∅ 0 initial) in
  project_messages (snd (format_update (fun _ => "") body (always "ok") s1)) !! id
  = Some [Message "user" (PStr "X"); Message "bot" (PStr "ok")].
Proof.
  intros id body s1.
  destruct (create_then_format_stores_pair (fun _ => "") ∅ 0 initial body
              (always "ok") "ok") as (_ & H & _).
  - vm_compute. reflexivity.
  - reflexivity.
  - exact H.
Defined.

(** X8 at work: a failing and an answering format call. *)
Lemma format_update_all_or_nothing_witness :
  snd (format_update (fun _ => "") {["update" := PStr "X"]} down initial) = initial
  /\ exists formatted,
       always "ok" "gpt-4" (format_messages (fun _ => "") {["update" := PStr "X"]})
       = Some formatted
       /\ PDict [("formatted", PStr "ok")] = PDict [("formatted", PStr formatted)].
Proof.
  split.
  - apply (proj1 (format_update_all_or_nothing (fun _ => "")
                    {["update" := PStr "X"]} down initial) ProviderError).
    reflexivity.
  - assert (Hb : fst (format_update (fun _ => "") {["update" := PStr "X"]}
                        (always "ok") initial)
                 = Response (PDict [("formatted", PStr "ok")]))
      by (vm_compute; reflexivity).
    destruct (proj2 (format_update_all_or_nothing (fun _ => "")
                       {["update" := PStr "X"]} (always "ok") initial)
                (PDict [("formatted", PStr "ok")]) Hb)
      as (formatted & Hc & Hf & _).
    exists formatted. now split.
Defined.

(** X9 at work: the empty text as id, with the empty text as a key. *)
Lemma format_update_falsy_id_witness :
  let s := Store [] {["" := []]} in
  format_update (fun _ => "")
    {["update" := PStr "X"; "project_id" := PStr ""]} (always "ok") s
  = (Response (PDict [("formatted", PStr "ok")]), s).
Proof.
  intros s.
  apply (format_update_falsy_id (fun _ => "")
           {["update" := PStr "X"; "project_id" := PStr ""]} (always "ok") s "ok");
    reflexivity.
Defined.

(** X10 at work: a provider that only serves [gpt-4]. *)
Lemma handlers_make_one_call_witness :
  let picky : completion :=
    fun model _ => if String.eqb model "gpt-4" then Some "ok" else None in
  summarize_project (fun _ => "") ∅ (always "ok") initial
  = summarize_project (fun _ => "") ∅ picky initial.
Proof.
  intros picky.
  destruct (handlers_make_one_call (fun _ => "") ∅ (always "ok") picky initial)
    as (_ & H & _).
  apply H. reflexivity.
Defined.

(** X12 at work: a text without white space around it. *)
Lemma strip_fixed_points_witness :
  fst (analyze_sentiment (fun _ => "") ∅ (always "Positive") initial)
  = Response (PDict [("sentiment", PStr "Positive")]).
Proof.
  destruct (strip_fixed_points (fun _ => "") ∅ (always "Positive") initial
              "Positive") as (_ & _ & _ & H).
  apply H; [reflexivity |]. split; reflexivity.
Defined.

(** X14 at work. *)
Lemma one_slot_prompts_injective_witness :
  format_prompt (fun _ => "") (PStr "X") = format_prompt (fun _ => "") (PStr "X")
  /\ "X" = "X".
Proof.
  split; [reflexivity |].
  apply (proj1 (one_slot_prompts_injective (fun _ => "") "X" "X")). reflexivity.
Defined.

(** X16 at work: the draw of an existing project comes again. *)
Lemma create_project_on_taken_id_witness :
  let id := "00000000-0000-4000-8000-000000000000" in
  let s := Store [Project id (PStr "Site")]
             {[id := [Message "user" (PStr "X"); Message "bot" (PStr "ok")]]} in
  project_messages (snd (create_project ∅ 0 s)) !! id = Some []
  /\ exists q, projects (snd (create_project ∅ 0 s)) = projects s ++ [q]
               /\ proj_id q = id.
Proof.
  intros id s.
  apply (create_project_on_taken_id ∅ 0 s (Project id (PStr "Site"))
           [Message "user" (PStr "X"); Message "bot" (PStr "ok")]).
  - constructor.
  - vm_compute. reflexivity.
  - vm_compute. reflexivity.
Defined.
